(** * Magnetic dip and declination from three-axis magnetometer logs

    A shallow embedding of [calculate_magnetic_parameters] from
    [冷湖实习磁倾角与磁偏角测量.py], and the properties of its angle derivation and
    of its adaptive Savitzky-Golay smoothing.

    Numbers.  A pandas float64 cell is modelled as an exact real number or
    NaN ([float := option R], [None] being NaN, the missing-value marker).
    Arithmetic is exact on numbers and propagates NaN; rounding, overflow,
    infinities and the sign of zero of IEEE-754 binary64 are outside this
    model.  Lengths and window sizes are Python integers, modelled in [Z].

    Tables.  A DataFrame is an ordered association list from column names
    to columns; [df[col] = v] replaces the column in place when the name is
    present and appends it otherwise.  Python exceptions are the [Raise]
    results of a small error monad. *)

From Stdlib Require Import ZArith Ascii String List Bool Lia.
From Stdlib Require Import Reals Lra.
From Stdlib Require DecimalString.
Import ListNotations.

Local Open Scope string_scope.
Local Open Scope list_scope.
Local Open Scope Z_scope.

(** ** Exceptions *)

Inductive exception : Type :=
| KeyError (key : string)
| TypeError (msg : string)
| ValueError (msg : string).

Inductive result (A : Type) : Type :=
| Ok (a : A)
| Raise (e : exception).

Arguments Ok {A} a.
Arguments Raise {A} e.

Definition bind {A B : Type} (c : result A) (k : A -> result B) : result B :=
  match c with
  | Ok a => k a
  | Raise e => Raise e
  end.

Notation "x <- c ;; k" := (bind c (fun x => k))
  (at level 61, c at next level, right associativity).

(** ** float64 cells and the numpy functions the program calls *)

Definition float : Type := option R.

Definition NaN : float := None.

Definition lift1 (f : R -> R) (x : float) : float :=
  match x with
  | Some a => Some (f a)
  | None => NaN
  end.

Definition lift2 (f : R -> R -> R) (x y : float) : float :=
  match x, y with
  | Some a, Some b => Some (f a b)
  | _, _ => NaN
  end.

(** [x ** 2] *)
Definition np_square (x : float) : float := lift1 (fun a => (a * a)%R) x.

(** [x + y] *)
Definition np_add (x y : float) : float := lift2 Rplus x y.

(** [np.sqrt]: NaN on a negative number. *)
Definition np_sqrt (x : float) : float :=
  match x with
  | Some a => if Rlt_dec a 0 then NaN else Some (sqrt a)
  | None => NaN
  end.

(** The two-argument arctangent on numbers: the angle of the point
    [(x, y)], with [atan2 0 0 = 0]. *)
Definition atan2 (y x : R) : R :=
  if Rlt_dec 0 x then atan (y / x)
  else if Rlt_dec x 0 then
    if Rle_dec 0 y then (atan (y / x) + PI)%R else (atan (y / x) - PI)%R
  else
    if Rlt_dec 0 y then (PI / 2)%R
    else if Rlt_dec y 0 then (- (PI / 2))%R
    else 0%R.

(** [np.arctan2(y, x)] *)
Definition np_arctan2 (y x : float) : float := lift2 atan2 y x.

(** [np.degrees] *)
Definition np_degrees (x : float) : float := lift1 (fun a => (a * (180 / PI))%R) x.


Definition degrees (a : R) : R := (a * (180 / PI))%R.


(** ** Series and data frames *)

(** A cell as read from the file: a float64 value, or text. *)
Inductive cell : Type :=
| Float (x : float)
| Text (s : string).

Definition Series : Type := list cell.

Definition DataFrame : Type := list (string * Series).

(** [df[col]] *)
Fixpoint getitem (df : DataFrame) (col : string) : result Series :=
  match df with
  | [] => Raise (KeyError col)
  | (name, s) :: rest => if String.eqb name col then Ok s else getitem rest col
  end.

(** [df[col] = v] *)
Fixpoint setitem (df : DataFrame) (col : string) (v : Series) : DataFrame :=
  match df with
  | [] => [(col, v)]
  | (name, s) :: rest =>
      if String.eqb name col then (name, v) :: rest
      else (name, s) :: setitem rest col v
  end.

(** [len(df)]: the number of rows. *)
Definition len (df : DataFrame) : Z :=
  match df with
  | [] => 0
  | (_, s) :: _ => Z.of_nat (length s)
  end.

(** The columns of a frame all have [n] rows. *)
Definition rectangular (n : nat) (df : DataFrame) : Prop :=
  Forall (fun c => length (snd c) = n) df.

Definition is_float (c : cell) : bool :=
  match c with
  | Float _ => true
  | Text _ => false
  end.

(** The float64 values of a column, as arithmetic reads them; text cells
    are not numbers. *)
Fixpoint to_float64 (s : Series) : result (list float) :=
  match s with
  | [] => Ok []
  | Float x :: rest => xs <- to_float64 rest ;; Ok (x :: xs)
  | Text _ :: _ => Raise (TypeError "unsupported operand type(s)")
  end.

Definition float_column (df : DataFrame) (col : string) : result (list float) :=
  s <- getitem df col ;; to_float64 s.

Definition of_floats (xs : list float) : Series := map Float xs.

(** Elementwise application of a binary function to two columns. *)
Fixpoint zip_with {A B C : Type} (f : A -> B -> C) (xs : list A) (ys : list B) : list C :=
  match xs, ys with
  | x :: xs', y :: ys' => f x y :: zip_with f xs' ys'
  | _, _ => []
  end.

(** ** The program *)

Section Program.

(** The reading of a text cell as a number by [pd.to_numeric]: the number it
    writes, or NaN when it writes none. *)
Variable parse_float : string -> float.

(** The value at position [pos] of the least-squares polynomial of degree
    [polyorder] through the samples placed at positions [0, 1, ...]: the
    arithmetic inside [scipy.signal.savgol_filter]. *)
Variable lsq_fit : Z -> list R -> Z -> R.

(** [pd.to_numeric(s, errors='coerce')] *)
Definition to_numeric_cell (c : cell) : float :=
  match c with
  | Float x => x
  | Text s => parse_float s
  end.

Definition to_numeric (s : Series) : Series :=
  of_floats (map to_numeric_cell s).

(** Lines 34-35: [for col in [...]: df[col] = pd.to_numeric(df[col], errors='coerce')]. *)
Definition numeric_columns : list string :=
  ["Time_s"; "Bx_uT"; "By_uT"; "Bz_uT"; "Absolute_field_uT"].

Fixpoint coerce_columns (cols : list string) (df : DataFrame) : result DataFrame :=
  match cols with
  | [] => Ok df
  | col :: rest =>
      s <- getitem df col ;;
      coerce_columns rest (setitem df col (to_numeric s))
  end.

(** Lines 34-45: the angle derivation. *)
Definition derive_angles (df : DataFrame) : result DataFrame :=
  df <- coerce_columns numeric_columns df ;;
  bx <- float_column df "Bx_uT" ;;
  by_ <- float_column df "By_uT" ;;
  let df := setitem df "H_uT"
    (of_floats (map np_sqrt (zip_with np_add (map np_square bx) (map np_square by_)))) in
  bz <- float_column df "Bz_uT" ;;
  h <- float_column df "H_uT" ;;
  let df := setitem df "Dip_Angle_deg"
    (of_floats (map np_degrees (zip_with np_arctan2 bz h))) in
  by_ <- float_column df "By_uT" ;;
  bx <- float_column df "Bx_uT" ;;
  let df := setitem df "Declination_deg"
    (of_floats (map np_degrees (zip_with np_arctan2 by_ bx))) in
  Ok df.

(** [n // 4 if n // 4 % 2 == 1 else n // 4 + 1] *)
Definition force_odd (n : Z) : Z :=
  if (n / 4) mod 2 =? 1 then n / 4 else n / 4 + 1.

(** Lines 51-52: [window_length = min(21, ...)], then
    [window_length = max(5, window_length)]. *)
Definition window_length (n : Z) : Z :=
  let window_length := Z.min 21 (force_odd n) in
  Z.max 5 window_length.

(** The selection as the specification words it: the candidate [n // 4]
    forced odd, then raised to at least 5, with no upper cap. *)
Definition window_length_uncapped (n : Z) : Z :=
  let candidate := n / 4 in
  let window_length := if Z.odd candidate then candidate else candidate + 1 in
  Z.max window_length 5.

(** The numbers of a window, when none of its samples is NaN. *)
Fixpoint numbers (ys : list float) : option (list R) :=
  match ys with
  | [] => Some []
  | Some a :: rest =>
      match numbers rest with
      | Some rs => Some (a :: rs)
      | None => None
      end
  | None :: _ => None
  end.

(** Sample [i] of the filtered series: the window of [window_length]
    samples is centred on [i], or is the first or last window of the series
    near its ends (mode [interp]); the result is the fitted polynomial at
    the position of [i] in that window, NaN when the window holds a NaN. *)
Definition savgol_sample (x : list float) (window_length polyorder : Z) (i : nat) : float :=
  let w := Z.to_nat window_length in
  let halflen := (w / 2)%nat in
  let start := Nat.min (i - halflen) (length x - w) in
  match numbers (firstn w (skipn start x)) with
  | Some ys => Some (lsq_fit polyorder ys (Z.of_nat (i - start)))
  | None => NaN
  end.

(** [scipy.signal.savgol_filter(x, window_length, polyorder)] in its default
    mode [interp]: a [ValueError] when the polynomial order is not below the
    window length or the window is longer than the series, else a series of
    the length of [x]. *)
Definition savgol_filter (x : list float) (window_length polyorder : Z)
  : result (list float) :=
  if polyorder >=? window_length then
    Raise (ValueError "polyorder must be less than window_length.")
  else if window_length >? Z.of_nat (length x) then
    Raise (ValueError
      "If mode is 'interp', window_length must be less than or equal to the size of x.")
  else
    Ok (map (savgol_sample x window_length polyorder) (seq 0 (length x))).

(** Lines 56-64: the three filtered columns. *)
Definition filter_columns (df : DataFrame) (window_length : Z) : result DataFrame :=
  dip <- float_column df "Dip_Angle_deg" ;;
  dip_smooth <- savgol_filter dip window_length 2 ;;
  let df := setitem df "Dip_Angle_smooth" (of_floats dip_smooth) in
  decl <- float_column df "Declination_deg" ;;
  decl_smooth <- savgol_filter decl window_length 2 ;;
  let df := setitem df "Declination_smooth" (of_floats decl_smooth) in
  bz <- float_column df "Bz_uT" ;;
  bz_smooth <- savgol_filter bz window_length 2 ;;
  let df := setitem df "Bz_smooth" (of_floats bz_smooth) in
  Ok df.

(** Lines 67-69 and 72-74: the smoothed columns are the source columns. *)
Definition copy_columns (df : DataFrame) : result DataFrame :=
  dip <- getitem df "Dip_Angle_deg" ;;
  let df := setitem df "Dip_Angle_smooth" dip in
  decl <- getitem df "Declination_deg" ;;
  let df := setitem df "Declination_smooth" decl in
  bz <- getitem df "Bz_uT" ;;
  let df := setitem df "Bz_smooth" bz in
  Ok df.

(** Lines 48-74: the adaptive smoothing. *)
Definition smooth (df : DataFrame) : result DataFrame :=
  let n := len df in
  if n >? 10 then
    let window_length := window_length n in
    if window_length >=? 5 then filter_columns df window_length
    else copy_columns df
  else copy_columns df.

Definition calculate_magnetic_parameters (df : DataFrame) : result DataFrame :=
  df <- derive_angles df ;;
  smooth df.

End Program.

(** ** Views used to state the properties *)

(** A sequence of column assignments [df[c1] = v1; df[c2] = v2; ...]. *)
Definition assign_all (df : DataFrame) (cols : list (string * Series)) : DataFrame :=
  fold_left (fun d c => setitem d (fst c) (snd c)) cols df.



(** The smoothed version of a column of a frame of [n] rows. *)
Definition smoothed (lsq_fit : Z -> list R -> Z -> R) (n : Z) (x : list float) : list float :=
  if n >? 10 then
    map (savgol_sample lsq_fit x (window_length n) 2) (seq 0 (length x))
  else x.

(** The frame has no column of that name. *)
Definition absent (df : DataFrame) (col : string) : Prop :=
  getitem df col = Raise (KeyError col).

Definition has_column (df : DataFrame) (col : string) : bool :=
  match getitem df col with
  | Ok _ => true
  | Raise _ => false
  end.

(** An input of the program: a table of [n] rows that has the five raw
    columns (their cells may be numbers, NaN or text). *)
Definition input_frame (n : nat) (df : DataFrame) : bool :=
  forallb (fun c => Nat.eqb (length (snd c)) n) df
  && forallb (has_column df) numeric_columns.


(** The names of the columns the program adds. *)
Definition derived_columns : list string :=
  ["H_uT"; "Dip_Angle_deg"; "Declination_deg";
   "Dip_Angle_smooth"; "Declination_smooth"; "Bz_smooth"].

(** ** Sample inputs *)

(** A reader of text cells that knows decimal integers. *)
Definition parse_integer (s : string) : float :=
  match DecimalString.NilZero.int_of_string s with
  | Some d => Some (IZR (Z.of_int d))
  | None => NaN
  end.

(** The least-squares fit of degree 0, the mean of the window. *)
Definition window_mean (polyorder : Z) (ys : list R) (pos : Z) : R :=
  (fold_right Rplus 0 ys / INR (length ys))%R.

(** A log of [n] samples of a steady field: 20 uT north, none east,
    40 uT down. *)
Definition steady_log (n : nat) : DataFrame :=
  [("Time_s", map (fun k => Float (Some (INR k))) (seq 0 n));
   ("Bx_uT", repeat (Float (Some 20%R)) n);
   ("By_uT", repeat (Float (Some 0%R)) n);
   ("Bz_uT", repeat (Float (Some 40%R)) n);
   ("Absolute_field_uT", repeat (Float (Some (sqrt 2000))) n)].


(** ** Reading a log (lines 8-25) *)

(** [s.endswith(suffix)] *)
Definition endswith (s suffix : string) : bool :=
  let n := String.length s in
  let k := String.length suffix in
  (k <=? n)%nat && String.eqb (substring (n - k) k s) suffix.

(** [str(n)] of a length. *)
Definition decimal (n : nat) : string :=
  DecimalString.NilEmpty.string_of_uint (Nat.to_uint n).

(** [str(e)] *)
Definition str (e : exception) : string :=
  match e with
  | KeyError key => String.append "'" (String.append key "'")
  | TypeError msg => msg
  | ValueError msg => msg
  end.

(** [df.columns = names]: the columns are renamed by position; pandas
    refuses a list of another length. *)
Definition set_columns (df : DataFrame) (names : list string) : result DataFrame :=
  if Nat.eqb (length df) (length names) then Ok (combine names (map snd df))
  else Raise (ValueError
    (String.append "Length mismatch: Expected axis has "
      (String.append (decimal (length df))
        (String.append " elements, new values have "
          (String.append (decimal (length names)) " elements"))))).

Section Reader.

(** [pd.read_excel(file_path)]: the first sheet of the file, under the
    headers the file gives it, or the exception the file causes. *)
Variable read_excel : string -> result DataFrame.

(** [pd.read_csv(file_path, skiprows=2, header=None, sep=r'\s+',
    names=column_names, engine='python')] *)
Variable read_csv : string -> list string -> result DataFrame.

(** The frame, or [None], and the line printed. *)
Definition read_magnetic_data (file_path : string) : option DataFrame * list string :=
  let attempt :=
    if endswith file_path ".xls" || endswith file_path ".xlsx" then
      df <- read_excel file_path ;;
      set_columns df ["Time_s"; "Bx_uT"; "By_uT"; "Bz_uT"; "Absolute_field_uT"]
    else
      let column_names := ["Time_s"; "Bx_uT"; "By_uT"; "Bz_uT"; "Absolute_field_uT"] in
      read_csv file_path column_names in
  match attempt with
  | Ok df => (Some df, [])
  | Raise e => (None, [String.append "Error reading file: " (str e)])
  end.

End Reader.

(** ** Plotting and saving (lines 78-124) *)

(** [s.replace(old, new)] for single characters. *)
Fixpoint replace (old new : ascii) (s : string) : string :=
  match s with
  | EmptyString => EmptyString
  | String c rest =>
      String (if Ascii.eqb c old then new else c) (replace old new rest)
  end.

(** A curve drawn by [axs[panel].plot(x, y, ..., label=...)]. *)
Record curve : Type := {
  panel : nat;
  label : string;
  xdata : Series;
  ydata : Series
}.

(** What the plotting function leaves behind: the curves and titles of
    the figure, the two files it writes and the line it prints. *)
Record plot_output : Type := {
  curves : list curve;
  titles : list string;
  figure_file : string;
  csv_file : string;
  csv_table : DataFrame;
  message : string
}.

Definition draw (df : DataFrame) (panel : nat) (xcol ycol label : string) : result curve :=
  x <- getitem df xcol ;;
  y <- getitem df ycol ;;
  Ok {| panel := panel; label := label; xdata := x; ydata := y |}.

Definition newline : string := String (ascii_of_nat 10) EmptyString.

Definition plot_magnetic_analysis (df : DataFrame) (location_name : string)
  : result plot_output :=
  dip <- draw df 0 "Time_s" "Dip_Angle_deg" "Raw" ;;
  dip_smooth <-
    (if has_column df "Dip_Angle_smooth"
     then c <- draw df 0 "Time_s" "Dip_Angle_smooth" "Smoothed" ;; Ok [c]
     else Ok []) ;;
  decl <- draw df 1 "Time_s" "Declination_deg" "Raw" ;;
  decl_smooth <-
    (if has_column df "Declination_smooth"
     then c <- draw df 1 "Time_s" "Declination_smooth" "Smoothed" ;; Ok [c]
     else Ok []) ;;
  bx <- draw df 2 "Time_s" "Bx_uT" "Bx (North)" ;;
  by_ <- draw df 2 "Time_s" "By_uT" "By (East)" ;;
  bz <-
    (if has_column df "Bz_smooth"
     then draw df 2 "Time_s" "Bz_smooth" "Bz (Down)"
     else draw df 2 "Time_s" "Bz_uT" "Bz (Down)") ;;
  total <- draw df 2 "Time_s" "Absolute_field_uT" "Total Field" ;;
  let clean_name := replace " " "_" location_name in
  let output_file :=
    String.append "Magnetic_Results_" (String.append clean_name ".csv") in
  Ok {| curves := [dip] ++ dip_smooth ++ [decl] ++ decl_smooth ++ [bx; by_; bz; total];
        titles := [String.append "Magnetic Dip Angle over Time - " location_name;
                   String.append "Magnetic Declination over Time - " location_name;
                   "Magnetic Field Components"];
        figure_file :=
          String.append "Magnetic_Analysis_" (String.append clean_name ".png");
        csv_file := output_file;
        csv_table := df;
        message :=
          String.append newline (String.append "Processed data saved to: " output_file) |}.

(** ** The statistics and the main program (lines 127-164) *)

(** The numbers of a column, NaN skipped, as [mean], [min] and [max] do. *)
Fixpoint dropna (xs : list float) : list R :=
  match xs with
  | [] => []
  | Some a :: rest => a :: dropna rest
  | None :: rest => dropna rest
  end.

(** [s.mean()] *)
Definition series_mean (xs : list float) : float :=
  match dropna xs with
  | [] => NaN
  | rs => Some (fold_right Rplus 0 rs / INR (length rs))%R
  end.

(** [s.min()] *)
Definition series_min (xs : list float) : float :=
  match dropna xs with
  | [] => NaN
  | a :: rs => Some (fold_left Rmin rs a)
  end.

(** [s.max()] *)
Definition series_max (xs : list float) : float :=
  match dropna xs with
  | [] => NaN
  | a :: rs => Some (fold_left Rmax rs a)
  end.

(** The values the main program formats and prints. *)
Record statistics : Type := {
  dip_mean : float;
  dip_min : float;
  dip_max : float;
  declination_mean : float;
  declination_min : float;
  declination_max : float;
  bz_min : float;
  bz_max : float;
  total_min : float;
  total_max : float
}.

Definition report (df : DataFrame) : result statistics :=
  dip <- float_column df "Dip_Angle_deg" ;;
  decl <- float_column df "Declination_deg" ;;
  bz <- float_column df "Bz_uT" ;;
  total <- float_column df "Absolute_field_uT" ;;
  Ok {| dip_mean := series_mean dip;
        dip_min := series_min dip;
        dip_max := series_max dip;
        declination_mean := series_mean decl;
        declination_min := series_min decl;
        declination_max := series_max decl;
        bz_min := series_min bz;
        bz_max := series_max bz;
        total_min := series_min total;
        total_max := series_max total |}.

(** [df.empty] *)
Definition empty (df : DataFrame) : bool :=
  match df with
  | [] => true
  | _ => len df =? 0
  end.

(** How a run of the script ends: [sys.exit(code)], the end of the script,
    or an exception nothing catches. *)
Inductive outcome : Type :=
| Exit (code : Z)
| Completed (stats : statistics) (out : plot_output)
| Uncaught (e : exception).

Section Script.

Variable read_excel : string -> result DataFrame.
Variable read_csv : string -> list string -> result DataFrame.
Variable parse_float : string -> float.
Variable lsq_fit : Z -> list R -> Z -> R.

(** The body of the script for a file path and a location name; the
    lines it prints to the console are left out. *)
Definition run (file_path location_name : string) : outcome :=
  let df := fst (read_magnetic_data read_excel read_csv file_path) in
  match df with
  | None => Exit 1
  | Some df =>
      if empty df then Exit 1
      else
        match
          (df <- calculate_magnetic_parameters parse_float lsq_fit df ;;
           stats <- report df ;;
           out <- plot_magnetic_analysis df location_name ;;
           Ok (stats, out))
        with
        | Ok (stats, out) => Completed stats out
        | Raise e => Uncaught e
        end
  end.


End Script.

(** A sheet as the recording application exports it: its own headers,
    two samples. *)
Definition phyphox_sheet : DataFrame :=
  [("Time (s)", [Float (Some 0%R); Float (Some 1%R)]);
   ("Magnetic field x (uT)", [Float (Some 20%R); Float (Some 21%R)]);
   ("Magnetic field y (uT)", [Float (Some 0%R); Text "n/a"]);
   ("Magnetic field z (uT)", [Float (Some 40%R); Float (Some (-40)%R)]);
   ("Absolute field (uT)", [Float (Some 45%R); Float NaN])].

(** A file system holding that sheet under every name, and no text file. *)
Definition one_sheet (file_path : string) : result DataFrame := Ok phyphox_sheet.

Definition no_text_file (file_path : string) (names : list string) : result DataFrame :=
  Raise (ValueError "No such file").

(** The characters of a string. *)
Definition characters (s : string) : list ascii := list_ascii_of_string s.


Section Facts.

Variable parse_float : string -> float.
Variable lsq_fit : Z -> list R -> Z -> R.

Abbreviation to_numeric_cell := (to_numeric_cell parse_float).
Abbreviation to_numeric := (to_numeric parse_float).
Abbreviation derive_angles := (derive_angles parse_float).
Abbreviation savgol_sample := (savgol_sample lsq_fit).
Abbreviation savgol_filter := (savgol_filter lsq_fit).
Abbreviation filter_columns := (filter_columns lsq_fit).
Abbreviation smooth := (smooth lsq_fit).
Abbreviation calculate_magnetic_parameters :=
  (calculate_magnetic_parameters parse_float lsq_fit).
Abbreviation smoothed := (smoothed lsq_fit).

(** ** Frames: lookup and assignment *)

Lemma getitem_setitem (df : DataFrame) (c c' : string) (v : Series) :
  getitem (setitem df c v) c' = if String.eqb c c' then Ok v else getitem df c'.
Proof.
  induction df as [|[name s] rest IH]; simpl.
  - destruct (String.eqb_spec c c'); reflexivity.
  - destruct (String.eqb_spec name c) as [->|Hn]; simpl.
    + destruct (String.eqb_spec c c'); reflexivity.
    + destruct (String.eqb_spec name c') as [->|Hn'].
      * destruct (String.eqb_spec c c') as [->|_]; [congruence|reflexivity].
      * exact IH.
Qed.

Lemma setitem_same (df : DataFrame) (c : string) (v : Series) :
  getitem df c = Ok v -> setitem df c v = df.
Proof.
  induction df as [|[name s] rest IH]; simpl; [discriminate|].
  destruct (String.eqb_spec name c) as [->|Hn]; intros H.
  - now inversion H.
  - now rewrite IH.
Qed.





Lemma rectangular_getitem (n : nat) (df : DataFrame) (c : string) (s : Series) :
  rectangular n df -> getitem df c = Ok s -> length s = n.
Proof.
  unfold rectangular. induction 1 as [|[name s'] rest Hs Hrest IH]; simpl; [discriminate|].
  destruct (String.eqb name c); intros H; [now inversion H; subst|auto].
Qed.

Lemma rectangular_setitem (n : nat) (df : DataFrame) (c : string) (v : Series) :
  rectangular n df -> length v = n -> rectangular n (setitem df c v).
Proof.
  unfold rectangular. intros Hdf Hv.
  induction Hdf as [|[name s'] rest Hs Hrest IH]; simpl.
  - now repeat constructor.
  - destruct (String.eqb name c); constructor; auto.
Qed.

Lemma len_rectangular (n : nat) (df : DataFrame) (c : string) (s : Series) :
  rectangular n df -> getitem df c = Ok s -> len df = Z.of_nat n.
Proof.
  intros Hdf. destruct df as [|[name s'] rest]; simpl; [discriminate|].
  intros _. inversion Hdf; subst. reflexivity.
Qed.

(** ** Series: values, coercion, elementwise operations *)

Lemma to_float64_of_floats (xs : list float) : to_float64 (of_floats xs) = Ok xs.
Proof.
  unfold of_floats. induction xs as [|x xs IH]; simpl; [reflexivity|].
  now rewrite IH.
Qed.

Lemma of_floats_length (xs : list float) : length (of_floats xs) = length xs.
Proof. apply length_map. Qed.

Lemma zip_with_length {A B C : Type} (f : A -> B -> C) (xs : list A) (ys : list B) :
  length xs = length ys -> length (zip_with f xs ys) = length xs.
Proof.
  revert ys. induction xs as [|x xs IH]; intros [|y ys]; simpl; try discriminate; auto.
Qed.


(** ** The numpy functions on numbers *)






Lemma atan2_x_0 (y : R) :
  atan2 y 0 = (if Rlt_dec 0 y then PI / 2 else if Rlt_dec y 0 then - (PI / 2) else 0)%R.
Proof.
  unfold atan2. destruct (Rlt_dec 0 0) as [H|_]; [lra|]. reflexivity.
Qed.






Lemma degrees_half_pi : degrees (PI / 2) = 90%R.
Proof. unfold degrees. field. pose proof PI_RGT_0. lra. Qed.

Lemma to_numeric_length (s : Series) : length (to_numeric s) = length s.
Proof. unfold to_numeric, of_floats. now rewrite !length_map. Qed.

Lemma to_numeric_all_float (s : Series) :
  forallb is_float s = true -> to_numeric s = s.
Proof.
  unfold to_numeric, of_floats.
  induction s as [|[x|txt] s IH]; simpl; intros H; try discriminate; [reflexivity|].
  now rewrite IH.
Qed.

Lemma float_column_setitem (df : DataFrame) (c c' : string) (xs : list float) :
  float_column (setitem df c (of_floats xs)) c'
  = if String.eqb c c' then Ok xs else float_column df c'.
Proof.
  unfold float_column. rewrite getitem_setitem.
  destruct (String.eqb c c'); [simpl; apply to_float64_of_floats|reflexivity].
Qed.

(** The result of the angle derivation, as a sequence of assignments to the
    input frame. *)
Lemma derive_angles_assign (df : DataFrame) (t bx by_ bz a : Series) :
  getitem df "Time_s" = Ok t ->
  getitem df "Bx_uT" = Ok bx ->
  getitem df "By_uT" = Ok by_ ->
  getitem df "Bz_uT" = Ok bz ->
  getitem df "Absolute_field_uT" = Ok a ->
  let X := map to_numeric_cell bx in
  let Y := map to_numeric_cell by_ in
  let Z := map to_numeric_cell bz in
  let H := map np_sqrt (zip_with np_add (map np_square X) (map np_square Y)) in
  derive_angles df = Ok (assign_all df
    [("Time_s", to_numeric t); ("Bx_uT", to_numeric bx); ("By_uT", to_numeric by_);
     ("Bz_uT", to_numeric bz); ("Absolute_field_uT", to_numeric a);
     ("H_uT", of_floats H);
     ("Dip_Angle_deg", of_floats (map np_degrees (zip_with np_arctan2 Z H)));
     ("Declination_deg", of_floats (map np_degrees (zip_with np_arctan2 Y X)))]).
Proof.
  intros Ht Hbx Hby Hbz Ha X Y Z H.
  unfold derive_angles, numeric_columns, assign_all. simpl.
  rewrite Ht. simpl.
  rewrite !getitem_setitem. simpl. rewrite Hbx. simpl.
  rewrite !getitem_setitem. simpl. rewrite Hby. simpl.
  rewrite !getitem_setitem. simpl. rewrite Hbz. simpl.
  rewrite !getitem_setitem. simpl. rewrite Ha. simpl.
  unfold to_numeric.
  rewrite !float_column_setitem. simpl.
  rewrite !float_column_setitem. simpl.
  rewrite !float_column_setitem. simpl.
  reflexivity.
Qed.

(** ** The window *)

Lemma force_odd_bounds (n : Z) :
  0 <= n -> Z.odd (force_odd n) = true /\ n / 4 <= force_odd n <= n / 4 + 1.
Proof.
  intros Hn. unfold force_odd.
  rewrite Zodd_mod.
  destruct (Z.eqb_spec ((n / 4) mod 2) 1) as [H1|H1].
  - rewrite H1. split; [reflexivity|lia].
  - replace ((n / 4 + 1) mod 2) with 1; [split; [reflexivity|lia]|].
    pose proof (Z.mod_pos_bound (n / 4) 2 ltac:(lia)) as Hb.
    assert (H0 : (n / 4) mod 2 = 0) by lia.
    rewrite Z.add_mod, H0 by lia. reflexivity.
Qed.

Lemma window_length_bounds (n : Z) :
  10 < n ->
  Z.odd (window_length n) = true /\ 5 <= window_length n <= 21 /\ window_length n <= n.
Proof.
  intros Hn.
  destruct (force_odd_bounds n ltac:(lia)) as (Hodd & Hlo & Hhi).
  assert (Hq : n / 4 + 1 <= n).
  { pose proof (Z.div_le_upper_bound n 4 (n - 1) ltac:(lia) ltac:(lia)). lia. }
  unfold window_length.
  repeat split; try lia.
  destruct (Z.le_gt_cases 21 (force_odd n)) as [H21|H21].
  - rewrite Z.min_l, Z.max_r by lia. reflexivity.
  - rewrite Z.min_r by lia.
    destruct (Z.le_gt_cases 5 (force_odd n)) as [H5|H5].
    + now rewrite Z.max_r by lia.
    + now rewrite Z.max_l by lia.
Qed.

Lemma savgol_filter_ok (x : list float) (w : Z) :
  2 < w -> w <= Z.of_nat (length x) ->
  savgol_filter x w 2 = Ok (map (savgol_sample x w 2) (seq 0 (length x))).
Proof.
  intros H2 Hw. unfold savgol_filter.
  destruct (Z.geb_spec 2 w); [lia|].
  destruct (Z.gtb_spec w (Z.of_nat (length x))); [lia|reflexivity].
Qed.

(** The result of the smoothing stage, as a sequence of assignments. *)
Lemma smooth_assign (n : nat) (df : DataFrame) (D L B : list float) :
  rectangular n df ->
  getitem df "Dip_Angle_deg" = Ok (of_floats D) ->
  getitem df "Declination_deg" = Ok (of_floats L) ->
  getitem df "Bz_uT" = Ok (of_floats B) ->
  smooth df = Ok (assign_all df
    [("Dip_Angle_smooth", of_floats (smoothed (Z.of_nat n) D));
     ("Declination_smooth", of_floats (smoothed (Z.of_nat n) L));
     ("Bz_smooth", of_floats (smoothed (Z.of_nat n) B))]).
Proof.
  intros Hdf HD HL HB.
  pose proof (rectangular_getitem _ _ _ _ Hdf HD) as HnD.
  pose proof (rectangular_getitem _ _ _ _ Hdf HL) as HnL.
  pose proof (rectangular_getitem _ _ _ _ Hdf HB) as HnB.
  rewrite of_floats_length in HnD, HnL, HnB.
  unfold smooth, smoothed, assign_all.
  rewrite (len_rectangular _ _ _ _ Hdf HD). simpl fold_left.
  destruct (Z.gtb_spec (Z.of_nat n) 10) as [Hn|Hn].
  - destruct (window_length_bounds (Z.of_nat n) ltac:(lia)) as (_ & (H5 & _) & Hle).
    destruct (Z.geb_spec (window_length (Z.of_nat n)) 5); [|lia].
    unfold filter_columns, float_column.
    rewrite HD. simpl. rewrite to_float64_of_floats. simpl.
    rewrite savgol_filter_ok by lia. simpl.
    rewrite !getitem_setitem. simpl. rewrite HL. simpl.
    rewrite to_float64_of_floats. simpl.
    rewrite savgol_filter_ok by lia. simpl.
    rewrite !getitem_setitem. simpl. rewrite HB. simpl.
    rewrite to_float64_of_floats. simpl.
    rewrite savgol_filter_ok by lia. simpl.
    reflexivity.
  - unfold copy_columns. rewrite HD. simpl.
    rewrite !getitem_setitem. simpl. rewrite HL. simpl.
    rewrite !getitem_setitem. simpl. rewrite HB. simpl.
    reflexivity.
Qed.

Lemma rectangular_assign_all (n : nat) (cols : list (string * Series)) (df : DataFrame) :
  rectangular n df -> Forall (fun c => length (snd c) = n) cols ->
  rectangular n (assign_all df cols).
Proof.
  unfold assign_all. intros Hdf Hcols. revert df Hdf.
  induction Hcols as [|[c v] cols Hv _ IH]; intros df Hdf; simpl; [assumption|].
  apply IH. now apply rectangular_setitem.
Qed.

Lemma smoothed_length (n : Z) (x : list float) : length (smoothed n x) = length x.
Proof.
  unfold smoothed. destruct (n >? 10); [|reflexivity].
  now rewrite length_map, length_seq.
Qed.

(** ** The whole computation as assignments to the input frame *)

Lemma calculate_assign (n : nat) (df : DataFrame) (t bx by_ bz a : Series) :
  rectangular n df ->
  getitem df "Time_s" = Ok t ->
  getitem df "Bx_uT" = Ok bx ->
  getitem df "By_uT" = Ok by_ ->
  getitem df "Bz_uT" = Ok bz ->
  getitem df "Absolute_field_uT" = Ok a ->
  let X := map to_numeric_cell bx in
  let Y := map to_numeric_cell by_ in
  let Z := map to_numeric_cell bz in
  let H := map np_sqrt (zip_with np_add (map np_square X) (map np_square Y)) in
  let D := map np_degrees (zip_with np_arctan2 Z H) in
  let L := map np_degrees (zip_with np_arctan2 Y X) in
  length H = n /\ length D = n /\ length L = n /\
  calculate_magnetic_parameters df = Ok (assign_all df
    [("Time_s", to_numeric t); ("Bx_uT", to_numeric bx); ("By_uT", to_numeric by_);
     ("Bz_uT", to_numeric bz); ("Absolute_field_uT", to_numeric a);
     ("H_uT", of_floats H);
     ("Dip_Angle_deg", of_floats D);
     ("Declination_deg", of_floats L);
     ("Dip_Angle_smooth", of_floats (smoothed (Z.of_nat n) D));
     ("Declination_smooth", of_floats (smoothed (Z.of_nat n) L));
     ("Bz_smooth", of_floats (smoothed (Z.of_nat n) Z))]).
Proof.
  intros Hdf Ht Hbx Hby Hbz Ha X Y Z H D L.
  pose proof (rectangular_getitem _ _ _ _ Hdf Ht) as Hnt.
  pose proof (rectangular_getitem _ _ _ _ Hdf Hbx) as Hnx.
  pose proof (rectangular_getitem _ _ _ _ Hdf Hby) as Hny.
  pose proof (rectangular_getitem _ _ _ _ Hdf Hbz) as Hnz.
  pose proof (rectangular_getitem _ _ _ _ Hdf Ha) as Hna.
  assert (HX : length X = n) by (unfold X; now rewrite length_map).
  assert (HY : length Y = n) by (unfold Y; now rewrite length_map).
  assert (HZ : length Z = n) by (unfold Z; now rewrite length_map).
  assert (HH : length H = n).
  { unfold H. rewrite length_map, zip_with_length; rewrite !length_map; congruence. }
  assert (HD : length D = n).
  { unfold D. rewrite length_map, zip_with_length; congruence. }
  assert (HL : length L = n).
  { unfold L. rewrite length_map, zip_with_length; congruence. }
  repeat split; try assumption.
  unfold calculate_magnetic_parameters.
  rewrite (derive_angles_assign df t bx by_ bz a Ht Hbx Hby Hbz Ha).
  fold X Y Z. fold H. fold D L. simpl bind.
  rewrite (smooth_assign n _ D L Z).
  - reflexivity.
  - repeat apply rectangular_setitem;
      rewrite ?to_numeric_length, ?of_floats_length; assumption.
  - rewrite !getitem_setitem. reflexivity.
  - rewrite !getitem_setitem. reflexivity.
  - rewrite !getitem_setitem. reflexivity.
Qed.

(** The columns of the result, read back from the frame. *)
Lemma calculate_columns (n : nat) (df : DataFrame) (t bx by_ bz a : Series) :
  rectangular n df ->
  getitem df "Time_s" = Ok t ->
  getitem df "Bx_uT" = Ok bx ->
  getitem df "By_uT" = Ok by_ ->
  getitem df "Bz_uT" = Ok bz ->
  getitem df "Absolute_field_uT" = Ok a ->
  let X := map to_numeric_cell bx in
  let Y := map to_numeric_cell by_ in
  let Z := map to_numeric_cell bz in
  let H := map np_sqrt (zip_with np_add (map np_square X) (map np_square Y)) in
  let D := map np_degrees (zip_with np_arctan2 Z H) in
  let L := map np_degrees (zip_with np_arctan2 Y X) in
  exists df',
    calculate_magnetic_parameters df = Ok df' /\
    rectangular n df' /\
    float_column df' "Bx_uT" = Ok X /\
    float_column df' "By_uT" = Ok Y /\
    float_column df' "Bz_uT" = Ok Z /\
    float_column df' "H_uT" = Ok H /\
    float_column df' "Dip_Angle_deg" = Ok D /\
    float_column df' "Declination_deg" = Ok L /\
    float_column df' "Dip_Angle_smooth" = Ok (smoothed (Z.of_nat n) D) /\
    float_column df' "Declination_smooth" = Ok (smoothed (Z.of_nat n) L) /\
    float_column df' "Bz_smooth" = Ok (smoothed (Z.of_nat n) Z).
Proof.
  intros Hdf Ht Hbx Hby Hbz Ha X Y Z H D L.
  destruct (calculate_assign n df t bx by_ bz a Hdf Ht Hbx Hby Hbz Ha)
    as (HH & HD & HL & Hrun).
  fold X Y Z in HH, HD, HL, Hrun. fold H in HH, HD, Hrun. fold D L in HD, HL, Hrun.
  eexists. split; [exact Hrun|].
  assert (Hnt := rectangular_getitem _ _ _ _ Hdf Ht).
  assert (Hnx := rectangular_getitem _ _ _ _ Hdf Hbx).
  assert (Hny := rectangular_getitem _ _ _ _ Hdf Hby).
  assert (Hnz := rectangular_getitem _ _ _ _ Hdf Hbz).
  assert (Hna := rectangular_getitem _ _ _ _ Hdf Ha).
  split.
  - apply rectangular_assign_all; [assumption|].
    repeat constructor; simpl;
      rewrite ?to_numeric_length, ?of_floats_length, ?smoothed_length;
      try assumption.
    unfold Z. now rewrite length_map.
  - unfold assign_all, to_numeric. simpl fold_left.
    rewrite !float_column_setitem. simpl.
    repeat split; reflexivity.
Qed.


Lemma input_frame_columns (n : nat) (df : DataFrame) :
  input_frame n df = true ->
  rectangular n df /\
  exists t bx by_ bz a,
    getitem df "Time_s" = Ok t /\ getitem df "Bx_uT" = Ok bx /\
    getitem df "By_uT" = Ok by_ /\ getitem df "Bz_uT" = Ok bz /\
    getitem df "Absolute_field_uT" = Ok a.
Proof.
  unfold input_frame, numeric_columns, has_column. simpl.
  rewrite !andb_true_iff. intros (Hrect & Ht & Hbx & Hby & Hbz & Ha & _).
  split.
  - unfold rectangular. apply Forall_forall. intros c Hc.
    rewrite forallb_forall in Hrect. apply Nat.eqb_eq. now apply Hrect.
  - destruct (getitem df "Time_s") as [t|]; [|discriminate].
    destruct (getitem df "Bx_uT") as [bx|]; [|discriminate].
    destruct (getitem df "By_uT") as [by_|]; [|discriminate].
    destruct (getitem df "Bz_uT") as [bz|]; [|discriminate].
    destruct (getitem df "Absolute_field_uT") as [a|]; [|discriminate].
    now exists t, bx, by_, bz, a.
Qed.


(** ** The angle derivation, sample by sample *)




(** ** Re-running the angle derivation *)

Lemma to_numeric_of_floats (xs : list float) : to_numeric (of_floats xs) = of_floats xs.
Proof. apply to_numeric_all_float. unfold of_floats. now induction xs. Qed.

Lemma to_numeric_cell_of_floats (xs : list float) :
  map to_numeric_cell (of_floats xs) = xs.
Proof.
  unfold of_floats. induction xs as [|x xs IH]; simpl; [reflexivity|].
  now rewrite IH.
Qed.

(** A frame that already holds the coerced raw columns and the derived
    columns is left as it is by the angle derivation. *)
Lemma derive_angles_fixed (df : DataFrame) (T X Y Z A : list float) :
  getitem df "Time_s" = Ok (of_floats T) ->
  getitem df "Bx_uT" = Ok (of_floats X) ->
  getitem df "By_uT" = Ok (of_floats Y) ->
  getitem df "Bz_uT" = Ok (of_floats Z) ->
  getitem df "Absolute_field_uT" = Ok (of_floats A) ->
  let H := map np_sqrt (zip_with np_add (map np_square X) (map np_square Y)) in
  getitem df "H_uT" = Ok (of_floats H) ->
  getitem df "Dip_Angle_deg" = Ok (of_floats (map np_degrees (zip_with np_arctan2 Z H))) ->
  getitem df "Declination_deg" = Ok (of_floats (map np_degrees (zip_with np_arctan2 Y X))) ->
  derive_angles df = Ok df.
Proof.
  intros H1 H2 H3 H4 H5 H H6 H7 H8.
  rewrite (derive_angles_assign df _ _ _ _ _ H1 H2 H3 H4 H5).
  cbv zeta. rewrite !to_numeric_of_floats, !to_numeric_cell_of_floats.
  fold H. unfold assign_all. simpl fold_left.
  rewrite (setitem_same df _ _ H1), (setitem_same df _ _ H2),
    (setitem_same df _ _ H3), (setitem_same df _ _ H4),
    (setitem_same df _ _ H5), (setitem_same df _ _ H6),
    (setitem_same df _ _ H7), (setitem_same df _ _ H8).
  reflexivity.
Qed.

(** C9: the angle derivation is idempotent: run on its own output it
    returns that output unchanged, so [H_uT], [Dip_Angle_deg] and
    [Declination_deg] (and every other column) keep their values. *)
Theorem derive_angles_idempotent (n : nat) (df : DataFrame) :
  input_frame n df = true ->
  exists df1 h dip decl,
    derive_angles df = Ok df1 /\
    getitem df1 "H_uT" = Ok h /\
    getitem df1 "Dip_Angle_deg" = Ok dip /\
    getitem df1 "Declination_deg" = Ok decl /\
    derive_angles df1 = Ok df1.
Proof.
  intros Hin.
  destruct (input_frame_columns n df Hin)
    as (_ & t & bx & by_ & bz & a & Ht & Hbx & Hby & Hbz & Ha).
  pose proof (derive_angles_assign df t bx by_ bz a Ht Hbx Hby Hbz Ha) as Hrun.
  cbv zeta in Hrun. unfold assign_all, to_numeric in Hrun. simpl fold_left in Hrun.
  do 4 eexists. split; [exact Hrun|].
  split; [rewrite !getitem_setitem; reflexivity|].
  split; [rewrite !getitem_setitem; reflexivity|].
  split; [rewrite !getitem_setitem; reflexivity|].
  apply (derive_angles_fixed _ (map to_numeric_cell t) (map to_numeric_cell bx)
           (map to_numeric_cell by_) (map to_numeric_cell bz) (map to_numeric_cell a));
    rewrite !getitem_setitem; reflexivity.
Qed.

(** ** Short series *)

Lemma smooth_short (df : DataFrame) : len df <= 10 -> smooth df = copy_columns df.
Proof.
  intros H. unfold smooth. destruct (Z.gtb_spec (len df) 10); [lia|reflexivity].
Qed.

Lemma smoothed_short (n : Z) (x : list float) : n <= 10 -> smoothed n x = x.
Proof.
  intros H. unfold smoothed. destruct (Z.gtb_spec n 10); [lia|reflexivity].
Qed.

(** C4: for every series of at most 10 samples the smoothing stage takes
    its copying branch, and each of the three smoothed columns is the very
    column it is taken from. *)
Theorem short_series_copied (n : nat) (df : DataFrame) :
  input_frame n df = true -> (n <= 10)%nat ->
  exists df1 df' dip decl bz,
    derive_angles df = Ok df1 /\
    smooth df1 = copy_columns df1 /\
    calculate_magnetic_parameters df = Ok df' /\
    getitem df' "Dip_Angle_deg" = Ok dip /\
    getitem df' "Dip_Angle_smooth" = Ok dip /\
    getitem df' "Declination_deg" = Ok decl /\
    getitem df' "Declination_smooth" = Ok decl /\
    getitem df' "Bz_uT" = Ok bz /\
    getitem df' "Bz_smooth" = Ok bz.
Proof.
  intros Hin Hn.
  destruct (input_frame_columns n df Hin)
    as (Hdf & t & bx & by_ & bz & a & Ht & Hbx & Hby & Hbz & Ha).
  destruct (calculate_assign n df t bx by_ bz a Hdf Ht Hbx Hby Hbz Ha)
    as (HH & HD & HL & Hrun).
  pose proof (derive_angles_assign df t bx by_ bz a Ht Hbx Hby Hbz Ha) as Hder.
  cbv zeta in Hder, Hrun.
  rewrite !smoothed_short in Hrun by lia.
  unfold assign_all in Hder, Hrun. simpl fold_left in Hder, Hrun.
  do 5 eexists. split; [exact Hder|]. split.
  - apply smooth_short.
    match goal with |- len ?d <= _ => assert (Hlen : len d = Z.of_nat n) end.
    { apply (len_rectangular n _ "H_uT" (of_floats
        (map np_sqrt (zip_with np_add (map np_square (map to_numeric_cell bx))
                                      (map np_square (map to_numeric_cell by_)))))).
      - pose proof (rectangular_getitem _ _ _ _ Hdf Ht).
        pose proof (rectangular_getitem _ _ _ _ Hdf Hbx).
        pose proof (rectangular_getitem _ _ _ _ Hdf Hby).
        pose proof (rectangular_getitem _ _ _ _ Hdf Hbz).
        pose proof (rectangular_getitem _ _ _ _ Hdf Ha).
        repeat apply rectangular_setitem;
          rewrite ?to_numeric_length, ?of_floats_length; assumption.
      - rewrite !getitem_setitem. reflexivity. }
    rewrite Hlen. lia.
  - split; [exact Hrun|].
    repeat split; rewrite !getitem_setitem; reflexivity.
Qed.

(** ** Columns are appended *)

Lemma has_column_false (df : DataFrame) (c : string) :
  has_column df c = false -> absent df c.
Proof.
  unfold has_column, absent.
  induction df as [|[name s] rest IH]; simpl; [reflexivity|].
  destruct (String.eqb name c); [discriminate|exact IH].
Qed.





(** What becomes of the columns of any input frame. *)
Lemma calculate_frame (n : nat) (df : DataFrame) :
  input_frame n df = true ->
  exists df',
    calculate_magnetic_parameters df = Ok df' /\
    rectangular n df' /\
    (forall c s, In c numeric_columns -> getitem df c = Ok s ->
       getitem df' c = Ok (to_numeric s)) /\
    (forall c, ~ In c numeric_columns -> ~ In c derived_columns ->
       getitem df' c = getitem df c) /\
    (forall c, In c derived_columns -> exists s, getitem df' c = Ok s /\ length s = n) /\
    (exists df1,
       derive_angles df = Ok df1 /\ smooth df1 = Ok df' /\
       forall c, ~ In c ["Dip_Angle_smooth"; "Declination_smooth"; "Bz_smooth"] ->
         getitem df' c = getitem df1 c).
Proof.
  intros Hin.
  destruct (input_frame_columns n df Hin)
    as (Hdf & t & bx & by_ & bz & a & Ht & Hbx & Hby & Hbz & Ha).
  destruct (calculate_columns n df t bx by_ bz a Hdf Ht Hbx Hby Hbz Ha)
    as (df' & Hrun & Hrect & _).
  pose proof (derive_angles_assign df t bx by_ bz a Ht Hbx Hby Hbz Ha) as Hfirst.
  cbv zeta in Hfirst. unfold assign_all in Hfirst. simpl fold_left in Hfirst.
  destruct (calculate_assign n df t bx by_ bz a Hdf Ht Hbx Hby Hbz Ha)
    as (_ & _ & _ & Hrun').
  assert (Edf : df' = _) by (rewrite Hrun in Hrun'; injection Hrun' as E; exact E).
  cbv zeta in Edf. unfold assign_all in Edf. simpl fold_left in Edf.
  exists df'. split; [exact Hrun|]. split; [exact Hrect|].
  split; [|split; [|split]].
  - intros c s Hc Hs. rewrite Edf.
    destruct Hc as [<-|[<-|[<-|[<-|[<-|[]]]]]]; rewrite !getitem_setitem; simpl; congruence.
  - intros c Hraw Hder. rewrite Edf, !getitem_setitem.
    unfold numeric_columns in Hraw. unfold derived_columns in Hder. simpl in Hraw, Hder.
    repeat match goal with
    | |- context [String.eqb ?k c] =>
        destruct (String.eqb_spec k c) as [E|_]; [exfalso; tauto|]
    end.
    reflexivity.
  - intros c Hc.
    assert (Hs : exists s, getitem df' c = Ok s).
    { rewrite Edf.
      destruct Hc as [<-|[<-|[<-|[<-|[<-|[<-|[]]]]]]]; rewrite !getitem_setitem; simpl; eauto. }
    destruct Hs as (s & Hs). exists s. split; [exact Hs|].
    exact (rectangular_getitem _ _ _ _ Hrect Hs).
  - eexists. split; [exact Hfirst|]. split.
    + unfold calculate_magnetic_parameters in Hrun. rewrite Hfirst in Hrun. exact Hrun.
    + intros c Hc. rewrite Edf. rewrite 3 getitem_setitem.
      destruct (String.eqb_spec "Bz_smooth" c) as [E|_]; [exfalso; apply Hc; simpl; auto|].
      destruct (String.eqb_spec "Declination_smooth" c) as [E|_];
        [exfalso; apply Hc; simpl; auto|].
      destruct (String.eqb_spec "Dip_Angle_smooth" c) as [E|_];
        [exfalso; apply Hc; simpl; auto|].
      reflexivity.
Qed.


(** ** Missing values *)





(** ** Window selection *)

(** C1, amended: for every series length [n > 10] the selected window is
    the candidate [n // 4] forced odd and raised to at least 5, capped at
    21: it is that uncapped value for [n < 88] and is 21 for every
    [n >= 88]. *)
Theorem window_length_capped (n : Z) :
  10 < n ->
  window_length n = Z.min 21 (window_length_uncapped n) /\
  (n < 88 -> window_length n = window_length_uncapped n) /\
  (88 <= n -> window_length n = 21 /\ 21 < window_length_uncapped n).
Proof.
  intros Hn.
  assert (Hu : window_length_uncapped n = Z.max (force_odd n) 5).
  { unfold window_length_uncapped, force_odd. now rewrite Zodd_mod. }
  destruct (force_odd_bounds n ltac:(lia)) as (_ & Hlo & Hhi).
  rewrite Hu. unfold window_length.
  split; [lia|]. split; intros Hn'.
  - assert (n / 4 <= 21) by (apply Z.lt_succ_r, Z.div_lt_upper_bound; lia).
    assert (Hodd : Z.odd (force_odd n) = true) by (apply force_odd_bounds; lia).
    assert (force_odd n <> 22) by (intros E; rewrite E in Hodd; discriminate).
    lia.
  - assert (22 <= n / 4) by (apply Z.div_le_lower_bound; lia).
    lia.
Qed.


End Facts.

(** ** Values on small inputs *)

Example window_length_11 : window_length 11 = 5.
Proof. reflexivity. Qed.

Example window_length_50 : window_length 50 = 13.
Proof. reflexivity. Qed.

Example window_length_100 : window_length 100 = 21.
Proof. reflexivity. Qed.

Example declination_due_east : np_degrees (np_arctan2 (Some 3%R) (Some 0%R)) = Some 90%R.
Proof.
  simpl. rewrite atan2_x_0.
  destruct (Rlt_dec 0 3) as [_|H]; [|lra].
  f_equal. apply degrees_half_pi.
Qed.

Example short_window_rejected :
  savgol_filter window_mean [Some 1%R; Some 2%R; Some 3%R] 5 2
  = Raise (ValueError
      "If mode is 'interp', window_length must be less than or equal to the size of x.").
Proof. reflexivity. Qed.

(** C1, as stated, fails at [n = 200]: the uncapped selection is 51, the
    program selects 21. *)
Lemma window_length_200 :
  10 < 200 /\ window_length_uncapped 200 = 51 /\ window_length 200 = 21 /\
  window_length 200 <> window_length_uncapped 200 /\ window_length 200 <> 51.
Proof. repeat split; try reflexivity; discriminate. Qed.

Lemma window_length_capped_witness :
  window_length 200 = Z.min 21 (window_length_uncapped 200) /\
  (200 < 88 -> window_length 200 = window_length_uncapped 200) /\
  (88 <= 200 -> window_length 200 = 21 /\ 21 < window_length_uncapped 200).
Proof. apply (window_length_capped 200). lia. Defined.

(** ** The properties on sample logs *)




Lemma short_series_copied_witness :
  exists df1 df' dip decl bz,
    derive_angles parse_integer (steady_log 3) = Ok df1 /\
    smooth window_mean df1 = copy_columns df1 /\
    calculate_magnetic_parameters parse_integer window_mean (steady_log 3) = Ok df' /\
    getitem df' "Dip_Angle_deg" = Ok dip /\
    getitem df' "Dip_Angle_smooth" = Ok dip /\
    getitem df' "Declination_deg" = Ok decl /\
    getitem df' "Declination_smooth" = Ok decl /\
    getitem df' "Bz_uT" = Ok bz /\
    getitem df' "Bz_smooth" = Ok bz.
Proof.
  apply (short_series_copied parse_integer window_mean 3 (steady_log 3)).
  - reflexivity.
  - lia.
Defined.




Lemma derive_angles_idempotent_witness :
  exists df1 h dip decl,
    derive_angles parse_integer (steady_log 3) = Ok df1 /\
    getitem df1 "H_uT" = Ok h /\
    getitem df1 "Dip_Angle_deg" = Ok dip /\
    getitem df1 "Declination_deg" = Ok decl /\
    derive_angles parse_integer df1 = Ok df1.
Proof.
  apply (derive_angles_idempotent parse_integer 3 (steady_log 3)).
  reflexivity.
Defined.


(** * Further properties of the program *)

(** ** The two-argument arctangent as a polar angle *)









Section Core.

Variable parse_float : string -> float.
Variable lsq_fit : Z -> list R -> Z -> R.

Abbreviation to_numeric_cell := (to_numeric_cell parse_float).
Abbreviation to_numeric := (to_numeric parse_float).
Abbreviation coerce_columns := (coerce_columns parse_float).
Abbreviation derive_angles := (derive_angles parse_float).
Abbreviation smooth := (smooth lsq_fit).
Abbreviation calculate_magnetic_parameters :=
  (calculate_magnetic_parameters parse_float lsq_fit).
Abbreviation smoothed := (smoothed lsq_fit).

(** ** A missing raw column *)

Lemma has_column_true (df : DataFrame) (c : string) :
  has_column df c = true -> exists s, getitem df c = Ok s.
Proof. unfold has_column. destruct (getitem df c); [eauto|discriminate]. Qed.

(** The function raises [KeyError] for the first of the five raw columns
    that the frame lacks, in the order of line 34, already in the angle
    derivation: nothing is computed on a frame that lacks one. *)
Theorem missing_column_raises (df : DataFrame) (c : string) :
  find (fun c => negb (has_column df c)) numeric_columns = Some c ->
  derive_angles df = Raise (KeyError c) /\
  calculate_magnetic_parameters df = Raise (KeyError c).
Proof.
  assert (Hfirst :
    find (fun c => negb (has_column df c)) numeric_columns = Some c ->
    derive_angles df = Raise (KeyError c)).
  { unfold numeric_columns. simpl.
    unfold derive_angles, numeric_columns. simpl.
    destruct (has_column df "Time_s") eqn:H1; simpl.
    2:{ intros [= <-]. now rewrite (has_column_false _ _ H1). }
    destruct (has_column_true _ _ H1) as (t & ->). simpl.
    rewrite !getitem_setitem. simpl.
    destruct (has_column df "Bx_uT") eqn:H2; simpl.
    2:{ intros [= <-]. now rewrite (has_column_false _ _ H2). }
    destruct (has_column_true _ _ H2) as (bx & ->). simpl.
    rewrite !getitem_setitem. simpl.
    destruct (has_column df "By_uT") eqn:H3; simpl.
    2:{ intros [= <-]. now rewrite (has_column_false _ _ H3). }
    destruct (has_column_true _ _ H3) as (by_ & ->). simpl.
    rewrite !getitem_setitem. simpl.
    destruct (has_column df "Bz_uT") eqn:H4; simpl.
    2:{ intros [= <-]. now rewrite (has_column_false _ _ H4). }
    destruct (has_column_true _ _ H4) as (bz & ->). simpl.
    rewrite !getitem_setitem. simpl.
    destruct (has_column df "Absolute_field_uT") eqn:H5; simpl.
    2:{ intros [= <-]. now rewrite (has_column_false _ _ H5). }
    discriminate. }
  intros Hc. split; [now apply Hfirst|].
  unfold calculate_magnetic_parameters. now rewrite (Hfirst Hc).
Qed.

(** ** Dip, declination and the field vector *)




(** ** The window as a function of the length *)

Lemma force_odd_monotone (n m : Z) : 0 <= n <= m -> force_odd n <= force_odd m.
Proof.
  intros H.
  destruct (force_odd_bounds n ltac:(lia)) as (_ & _ & Hn).
  destruct (force_odd_bounds m ltac:(lia)) as (Hodd & Hm & Hm').
  assert (Hq : n / 4 <= m / 4) by (apply Z.div_le_mono; lia).
  destruct (Z.eq_dec (n / 4) (m / 4)) as [E|E].
  - unfold force_odd. rewrite E. lia.
  - lia.
Qed.

(** A longer series never gets a shorter window, and from 16 samples on
    the window covers at most a quarter of the series plus one sample. *)
Theorem window_grows_with_length (n m : Z) :
  0 <= n <= m ->
  window_length n <= window_length m /\
  (16 <= n -> 4 * window_length n <= n + 4).
Proof.
  intros H. pose proof (force_odd_monotone n m H) as Hmono.
  unfold window_length. split; [lia|].
  intros H16.
  destruct (force_odd_bounds n ltac:(lia)) as (_ & _ & Hhi).
  assert (4 <= n / 4) by (apply Z.div_le_lower_bound; lia).
  assert (4 * (n / 4) <= n) by (apply Z.mul_div_le; lia).
  lia.
Qed.

(** ** Running the function again, and the columns of its result *)






End Core.

(** ** Strings: suffixes and replaced characters *)

Lemma characters_append (a b : string) :
  characters (String.append a b) = characters a ++ characters b.
Proof.
  unfold characters. induction a as [|c a IH]; simpl; [reflexivity|].
  now rewrite IH.
Qed.

Lemma replace_characters (old new : ascii) (s : string) :
  characters (replace old new s)
  = map (fun c => if Ascii.eqb c old then new else c) (characters s).
Proof.
  unfold characters. induction s as [|c s IH]; simpl; [reflexivity|].
  now rewrite IH.
Qed.

Lemma replace_length (old new : ascii) (s : string) :
  String.length (replace old new s) = String.length s.
Proof. induction s as [|c s IH]; simpl; [reflexivity|]. now rewrite IH. Qed.

Lemma replace_removes (old new : ascii) (s : string) :
  old <> new -> ~ In old (characters (replace old new s)).
Proof.
  intros Hne. rewrite replace_characters. intros Hin.
  apply in_map_iff in Hin as (c & Hc & _).
  destruct (Ascii.eqb_spec c old); congruence.
Qed.

Lemma replace_absent (old new : ascii) (s : string) :
  ~ In old (characters s) -> replace old new s = s.
Proof.
  unfold characters. induction s as [|c s IH]; simpl; [reflexivity|].
  intros Hn. destruct (Ascii.eqb_spec c old) as [->|_]; [tauto|].
  rewrite IH; tauto.
Qed.

Lemma replace_idempotent (old new : ascii) (s : string) :
  old <> new -> replace old new (replace old new s) = replace old new s.
Proof. intros Hne. apply replace_absent. now apply replace_removes. Qed.

Lemma endswith_append (s suffix : string) : endswith (String.append s suffix) suffix = true.
Proof.
  unfold endswith.
  assert (Hlen : String.length (String.append s suffix)
                 = (String.length s + String.length suffix)%nat).
  { induction s as [|c s IH]; simpl; [reflexivity|]. now rewrite IH. }
  rewrite Hlen. clear Hlen.
  replace (String.length s + String.length suffix - String.length suffix)%nat
    with (String.length s) by lia.
  apply andb_true_iff. split; [apply Nat.leb_le; lia|].
  apply String.eqb_eq.
  induction s as [|c s IH]; simpl.
  - induction suffix as [|c t IHt]; simpl; [reflexivity|]. now rewrite IHt.
  - exact IH.
Qed.

(** ** Minimum, mean and maximum of a column *)












(** ** The files written, and the order of the statistics *)

Lemma plot_fields (df : DataFrame) (location_name : string) (out : plot_output) :
  plot_magnetic_analysis df location_name = Ok out ->
  figure_file out
    = String.append "Magnetic_Analysis_"
        (String.append (replace " " "_" location_name) ".png") /\
  csv_file out
    = String.append "Magnetic_Results_"
        (String.append (replace " " "_" location_name) ".csv") /\
  csv_table out = df.
Proof.
  unfold plot_magnetic_analysis.
  repeat match goal with
  | |- context [draw ?d ?p ?x ?y ?l] => destruct (draw d p x y l); simpl
  | |- context [has_column ?d ?c] => destruct (has_column d c); simpl
  end; try discriminate; intros [= <-]; simpl; auto.
Qed.

(** The two files written for a location are named after it with every
    space replaced by an underscore: the names hold no space, the
    location keeps its length and its other characters, and a location
    without a space is used as it is. *)
Theorem output_files_named (df : DataFrame) (location_name : string) (out : plot_output) :
  plot_magnetic_analysis df location_name = Ok out ->
  exists clean_name,
    figure_file out
      = String.append "Magnetic_Analysis_" (String.append clean_name ".png") /\
    csv_file out
      = String.append "Magnetic_Results_" (String.append clean_name ".csv") /\
    ~ In " "%char (characters (figure_file out)) /\
    ~ In " "%char (characters (csv_file out)) /\
    String.length clean_name = String.length location_name /\
    characters clean_name
      = map (fun c => if Ascii.eqb c " " then "_"%char else c)
          (characters location_name) /\
    (~ In " "%char (characters location_name) -> clean_name = location_name).
Proof.
  intros Hplot.
  destruct (plot_fields df location_name out Hplot) as (Hfig & Hcsv & _).
  exists (replace " " "_" location_name).
  split; [exact Hfig|]. split; [exact Hcsv|].
  assert (Hclean : ~ In " "%char (characters (replace " " "_" location_name)))
    by (apply replace_removes; discriminate).
  split; [|split; [|split; [|split]]].
  - rewrite Hfig, !characters_append, !in_app_iff. intros [H|[H|H]].
    + unfold characters in H. simpl in H. intuition discriminate.
    + contradiction.
    + unfold characters in H. simpl in H. intuition discriminate.
  - rewrite Hcsv, !characters_append, !in_app_iff. intros [H|[H|H]].
    + unfold characters in H. simpl in H. intuition discriminate.
    + contradiction.
    + unfold characters in H. simpl in H. intuition discriminate.
  - apply replace_length.
  - apply replace_characters.
  - apply replace_absent.
Qed.




Section Shell.

Variable read_excel : string -> result DataFrame.
Variable read_csv : string -> list string -> result DataFrame.
Variable parse_float : string -> float.
Variable lsq_fit : Z -> list R -> Z -> R.

Abbreviation read_magnetic_data := (read_magnetic_data read_excel read_csv).
Abbreviation to_numeric_cell := (to_numeric_cell parse_float).
Abbreviation to_numeric := (to_numeric parse_float).
Abbreviation calculate_magnetic_parameters :=
  (calculate_magnetic_parameters parse_float lsq_fit).
Abbreviation smoothed := (smoothed lsq_fit).
Abbreviation run := (run read_excel read_csv parse_float lsq_fit).

(** ** The reader *)

Lemma read_excel_sheet (file_path : string) (sheet : DataFrame) (n : nat) :
  endswith file_path ".xls" || endswith file_path ".xlsx" = true ->
  read_excel file_path = Ok sheet ->
  length sheet = 5%nat ->
  rectangular n sheet ->
  exists df,
    read_magnetic_data file_path = (Some df, []) /\
    map fst df = numeric_columns /\
    map snd df = map snd sheet /\
    rectangular n df /\
    input_frame n df = true.
Proof.
  intros Hext Hread Hlen Hrect.
  unfold read_magnetic_data. rewrite Hext, Hread. simpl bind.
  destruct sheet as [|[h1 c1] [|[h2 c2] [|[h3 c3] [|[h4 c4] [|[h5 c5] [|]]]]]];
    try discriminate.
  unfold rectangular in Hrect.
  inversion Hrect as [|? ? L1 R1]; subst. inversion R1 as [|? ? L2 R2]; subst.
  inversion R2 as [|? ? L3 R3]; subst. inversion R3 as [|? ? L4 R4]; subst.
  inversion R4 as [|? ? L5 R5]; subst. simpl in *.
  eexists. split; [reflexivity|]. split; [reflexivity|]. split; [reflexivity|].
  split.
  - unfold rectangular. repeat constructor; assumption.
  - unfold input_frame. simpl. rewrite L2, L3, L4, L5, !Nat.eqb_refl. reflexivity.
Qed.

(** A spreadsheet of exactly five columns is returned with its columns
    renamed by position to the five raw names, whatever headers the file
    gave them, and its cells untouched: the frame is an input of the
    computation. *)
Theorem excel_sheet_is_renamed (file_path : string) (sheet : DataFrame) (n : nat) :
  endswith file_path ".xls" || endswith file_path ".xlsx" = true ->
  read_excel file_path = Ok sheet ->
  length sheet = 5%nat ->
  rectangular n sheet ->
  exists df,
    read_magnetic_data file_path = (Some df, []) /\
    map fst df = numeric_columns /\
    map snd df = map snd sheet /\
    rectangular n df /\
    input_frame n df = true.
Proof. apply read_excel_sheet. Qed.

(** When the spreadsheet cannot be read, or has another number of
    columns than five, the reader returns [None] after printing one line
    that carries the text of the exception, and the script exits with
    status 1. *)
Theorem unreadable_file_exits (file_path location_name : string) (e : exception) :
  endswith file_path ".xls" || endswith file_path ".xlsx" = true ->
  (read_excel file_path = Raise e \/
   exists sheet,
     read_excel file_path = Ok sheet /\ length sheet <> 5%nat /\
     e = ValueError
           (String.append "Length mismatch: Expected axis has "
              (String.append (decimal (length sheet))
                 " elements, new values have 5 elements"))) ->
  read_magnetic_data file_path
    = (None, [String.append "Error reading file: " (str e)]) /\
  run file_path location_name = Exit 1.
Proof.
  intros Hext Hcase.
  assert (Hread : read_magnetic_data file_path
                  = (None, [String.append "Error reading file: " (str e)])).
  { unfold read_magnetic_data. rewrite Hext.
    destruct Hcase as [Hr|(sheet & Hr & Hlen & ->)]; rewrite Hr; simpl bind.
    - reflexivity.
    - unfold set_columns.
      destruct (Nat.eqb_spec (length sheet) (length
        ["Time_s"; "Bx_uT"; "By_uT"; "Bz_uT"; "Absolute_field_uT"])) as [E|_];
        [simpl in E; contradiction|].
      reflexivity. }
  split; [exact Hread|].
  unfold run. now rewrite Hread.
Qed.

(** A spreadsheet of five columns and no rows is read, and then the
    script exits with status 1 without computing anything. *)
Theorem empty_sheet_exits (file_path location_name : string) (sheet : DataFrame) :
  endswith file_path ".xls" || endswith file_path ".xlsx" = true ->
  read_excel file_path = Ok sheet ->
  length sheet = 5%nat ->
  rectangular 0 sheet ->
  (exists df, read_magnetic_data file_path = (Some df, []) /\ empty df = true) /\
  run file_path location_name = Exit 1.
Proof.
  intros Hext Hread Hlen Hrect.
  destruct (read_excel_sheet file_path sheet 0 Hext Hread Hlen Hrect)
    as (df & Hdf & Hnames & _ & Hr & _).
  assert (He : empty df = true).
  { destruct df as [|[name s] rest]; [reflexivity|].
    inversion Hr as [|? ? L _]; subst. simpl in L. unfold empty, len.
    now rewrite L. }
  split; [now exists df|].
  unfold run. rewrite Hdf. cbv zeta. cbn [fst]. now rewrite He.
Qed.

(** ** Plotting and saving the result *)

Lemma plot_of_result (n : nat) (df df' : DataFrame) (location_name : string) :
  input_frame n df = true ->
  calculate_magnetic_parameters df = Ok df' ->
  exists out t dip dip_s decl decl_s bx by_ bz_s total,
    plot_magnetic_analysis df' location_name = Ok out /\
    getitem df' "Time_s" = Ok t /\
    getitem df' "Dip_Angle_deg" = Ok dip /\
    getitem df' "Dip_Angle_smooth" = Ok dip_s /\
    getitem df' "Declination_deg" = Ok decl /\
    getitem df' "Declination_smooth" = Ok decl_s /\
    getitem df' "Bx_uT" = Ok bx /\
    getitem df' "By_uT" = Ok by_ /\
    getitem df' "Bz_smooth" = Ok bz_s /\
    getitem df' "Absolute_field_uT" = Ok total /\
    map (fun c => (panel c, label c, ydata c)) (curves out)
    = [(0%nat, "Raw", dip); (0%nat, "Smoothed", dip_s);
       (1%nat, "Raw", decl); (1%nat, "Smoothed", decl_s);
       (2%nat, "Bx (North)", bx); (2%nat, "By (East)", by_);
       (2%nat, "Bz (Down)", bz_s); (2%nat, "Total Field", total)] /\
    Forall (fun c => xdata c = t /\ length (xdata c) = n /\ length (ydata c) = n)
      (curves out) /\
    csv_table out = df'.
Proof.
  intros Hin Hrun.
  destruct (input_frame_columns n df Hin)
    as (Hdf & t & bx & by_ & bz & a & Ht & Hbx & Hby & Hbz & Ha).
  destruct (calculate_frame parse_float lsq_fit n df Hin)
    as (df'' & Hrun'' & Hrect & Hraw & _ & Hnew & _).
  assert (df'' = df') by congruence. subst df''.
  pose proof (Hraw "Time_s" t ltac:(simpl; auto) Ht) as Gt.
  pose proof (Hraw "Bx_uT" bx ltac:(simpl; auto) Hbx) as Gx.
  pose proof (Hraw "By_uT" by_ ltac:(simpl; auto) Hby) as Gy.
  pose proof (Hraw "Absolute_field_uT" a ltac:(simpl; auto 7) Ha) as Ga.
  destruct (Hnew "Dip_Angle_deg" ltac:(simpl; auto)) as (dip & Gd & Ld).
  destruct (Hnew "Declination_deg" ltac:(simpl; auto)) as (decl & Gl & Ll).
  destruct (Hnew "Dip_Angle_smooth" ltac:(simpl; auto 6)) as (dip_s & Gds & Lds).
  destruct (Hnew "Declination_smooth" ltac:(simpl; auto 7)) as (decl_s & Gls & Lls).
  destruct (Hnew "Bz_smooth" ltac:(simpl; auto 8)) as (bz_s & Gzs & Lzs).
  pose proof (rectangular_getitem _ _ _ _ Hrect Gt) as Lt.
  pose proof (rectangular_getitem _ _ _ _ Hrect Gx) as Lx.
  pose proof (rectangular_getitem _ _ _ _ Hrect Gy) as Ly.
  pose proof (rectangular_getitem _ _ _ _ Hrect Ga) as La.
  eexists. exists (to_numeric t), dip, dip_s, decl, decl_s,
    (to_numeric bx), (to_numeric by_), bz_s, (to_numeric a).
  split.
  { unfold plot_magnetic_analysis, draw, has_column.
    rewrite Gt, Gd, Gds, Gl, Gls, Gx, Gy, Gzs, Ga. simpl. reflexivity. }
  repeat (split; [assumption|]).
  split; [reflexivity|]. split; [|reflexivity].
  simpl. repeat constructor; simpl; assumption.
Qed.


(** ** The statistics and the whole script *)



End Shell.

(** ** The further properties on sample logs *)

Lemma missing_column_raises_witness :
  derive_angles parse_integer [("Time_s", [Float (Some 0%R)])] = Raise (KeyError "Bx_uT") /\
  calculate_magnetic_parameters parse_integer window_mean [("Time_s", [Float (Some 0%R)])]
    = Raise (KeyError "Bx_uT").
Proof.
  apply (missing_column_raises parse_integer window_mean
           [("Time_s", [Float (Some 0%R)])] "Bx_uT").
  reflexivity.
Defined.




Lemma window_grows_with_length_witness :
  window_length 16 <= window_length 200 /\
  (16 <= 16 -> 4 * window_length 16 <= 16 + 4).
Proof. apply (window_grows_with_length 16 200). lia. Defined.



Lemma excel_sheet_is_renamed_witness :
  exists df,
    read_magnetic_data one_sheet no_text_file "phyphox.xlsx" = (Some df, []) /\
    map fst df = numeric_columns /\
    map snd df = map snd phyphox_sheet /\
    rectangular 2 df /\
    input_frame 2 df = true.
Proof.
  apply (excel_sheet_is_renamed one_sheet no_text_file "phyphox.xlsx" phyphox_sheet 2).
  - reflexivity.
  - reflexivity.
  - reflexivity.
  - unfold rectangular, phyphox_sheet. repeat constructor.
Defined.

Lemma unreadable_file_exits_witness :
  read_magnetic_data (fun _ => Raise (KeyError "Sheet1")) no_text_file "phyphox.xls"
    = (None, ["Error reading file: 'Sheet1'"]) /\
  run (fun _ => Raise (KeyError "Sheet1")) no_text_file parse_integer window_mean
      "phyphox.xls" "Location 1"
    = Exit 1.
Proof.
  apply (unreadable_file_exits (fun _ => Raise (KeyError "Sheet1")) no_text_file
           parse_integer window_mean "phyphox.xls" "Location 1" (KeyError "Sheet1")).
  - reflexivity.
  - now left.
Defined.

Lemma empty_sheet_exits_witness :
  (exists df,
     read_magnetic_data (fun _ => Ok (steady_log 0)) no_text_file "phyphox.xls"
       = (Some df, []) /\ empty df = true) /\
  run (fun _ => Ok (steady_log 0)) no_text_file parse_integer window_mean
      "phyphox.xls" "Location 1"
    = Exit 1.
Proof.
  apply (empty_sheet_exits (fun _ => Ok (steady_log 0)) no_text_file
           parse_integer window_mean "phyphox.xls" "Location 1" (steady_log 0)).
  - reflexivity.
  - reflexivity.
  - reflexivity.
  - unfold rectangular, steady_log. repeat constructor.
Defined.


Lemma output_files_named_witness :
  exists df out,
    plot_magnetic_analysis df "Location 1" = Ok out /\
    figure_file out = "Magnetic_Analysis_Location_1.png" /\
    csv_file out = "Magnetic_Results_Location_1.csv" /\
    ~ In " "%char (characters (figure_file out)) /\
    ~ In " "%char (characters (csv_file out)).
Proof.
  destruct (calculate_frame parse_integer window_mean 1 (steady_log 1) eq_refl)
    as (df' & Hrun & _).
  destruct (plot_of_result parse_integer window_mean 1 (steady_log 1) df' "Location 1"
              eq_refl Hrun) as (out & t & dip & dip_s & decl & decl_s & bx & by_ & bz_s
                                & total & Hplot & _).
  destruct (output_files_named df' "Location 1" out Hplot)
    as (clean & _ & _ & Hfig & Hcsv & _).
  destruct (plot_fields df' "Location 1" out Hplot) as (Ffig & Fcsv & _).
  exists df', out. split; [exact Hplot|]. split; [exact Ffig|]. split; [exact Fcsv|].
  split; assumption.
Defined.

